(** * rag.py: the retrieval pipeline (load, split, embed, store, query)

    A shallow embedding of [src/rag.py].  The functions of the module are
    translated one by one and keep their names.  The external collaborators
    the module calls are not part of it: the text splitter and the sentence
    embedding model are parameters of the development, the file system and
    the PDF loader are read from the world state, and the vector store
    follows its contract in the specification.

    Embedding vectors are lists of real numbers, on which the formula of the
    normalisation is written out; no statement below is about the rounding,
    overflow or special values of the float32 tensors of the source.  The
    [print] statements of the module are left out. *)

From Stdlib Require Import ZArith Reals Lra Lia Ascii String.
From Stdlib Require Uint63 Floats.PrimFloat Floats.FloatOps Floats.SpecFloat.
From stdpp Require Import gmap strings list fin_maps sorting.

Local Open Scope string_scope.

(** ** Python values *)

(** The values that document metadata holds. *)
Inductive pyval : Type :=
  | PyNone
  | PyInt (z : Z)
  | PyStr (s : string).

Definition is_str (v : pyval) : Prop :=
  match v with PyStr _ => True | _ => False end.

Definition is_nonneg_int (v : pyval) : Prop :=
  match v with PyInt z => (0 <= z)%Z | _ => False end.

(** Python floats are binary64; [int(x)] truncates toward zero and raises
    on infinities and NaN ([None] here). *)
Module PyFloat.
Import PrimFloat.

Definition of_int (z : Z) : float := of_uint63 (Uint63.of_Z z).

(** The literal [0.3]: the binary64 value closest to three tenths. *)
Definition lit_0_3 : float := 0x1.3333333333333p-2%float.

Definition to_int (f : float) : option Z :=
  match FloatOps.Prim2SF f with
  | SpecFloat.S754_zero _ => Some 0%Z
  | SpecFloat.S754_finite s m e =>
      let a := if (0 <=? e)%Z then Z.shiftl (Z.pos m) e
               else Z.shiftr (Z.pos m) (- e) in
      Some (if s then (- a)%Z else a)
  | _ => None
  end.

End PyFloat.

(** ** Documents and the text splitter *)

(** A langchain [Document]: text plus a metadata dict. *)
Record Document : Type := mkDocument {
  page_content : string;
  metadata : gmap string pyval
}.

(** [hasattr(doc, 'page_content')]: every [Document] has the attribute. *)
Definition hasattr_page_content (doc : Document) : bool := true.

(** The keyword arguments given to [RecursiveCharacterTextSplitter]. *)
Record TextSplitter : Type := mkTextSplitter {
  ts_chunk_size : Z;
  ts_chunk_overlap : Z;
  ts_separators : list string
}.

Definition newline : string := String "010"%char EmptyString.

Definition CHUNK_SIZE : Z := 384.

(** [CHUNK_SIZE * 0.3], a float product. *)
Definition chunk_overlap_float : PrimFloat.float :=
  PrimFloat.mul (PyFloat.of_int CHUNK_SIZE) PyFloat.lit_0_3.

(** [chunk_overlap = int(CHUNK_SIZE * 0.3)]. *)
Definition chunk_overlap : Z :=
  match PyFloat.to_int chunk_overlap_float with
  | Some z => z
  | None => 0
  end.

Definition child_splitter : TextSplitter :=
  {| ts_chunk_size := CHUNK_SIZE;
     ts_chunk_overlap := chunk_overlap;
     ts_separators := [newline +:+ newline; newline; ". "; ", "; " "; ""] |}.

(** ** The embedding model *)

Definition vec : Type := list R.

(** A loaded [SentenceTransformer].  [encode] is called in two shapes: on a
    list of texts (a matrix comes back, one row per text) and on one text
    (one row comes back). *)
Record SentenceTransformer : Type := mkSentenceTransformer {
  encode_batch : list string -> list vec;
  encode_single : string -> vec;
  get_sentence_embedding_dimension : Z;
  get_max_seq_length : Z
}.

(** The two call shapes agree: the rows of a batch are what the single call
    returns for its texts, one by one.  This is more than each call being a
    function of its input, which every [SentenceTransformer] here is. *)
Definition batch_consistent (encoder : SentenceTransformer) : Prop :=
  forall texts, encode_batch encoder texts = map (encode_single encoder) texts.

(** ** L2 normalisation, [F.normalize(x, p=2, dim=1)]

    Each row [v] becomes [v / max(‖v‖₂, eps)] with [eps = 1e-12]. *)

Definition sum_sq (v : vec) : R := foldr (fun x acc => x * x + acc)%R 0%R v.

Definition l2_norm (v : vec) : R := sqrt (sum_sq v).

Definition normalize_eps : R := (1 / 10 ^ 12)%R.

Definition normalize_row (v : vec) : vec :=
  map (fun x => x / Rmax (l2_norm v) normalize_eps)%R v.

Definition F_normalize (m : list vec) : list vec := map normalize_row m.



(** ** encode_docs *)

(** One entry of [dict_list]: the dict literal with keys
    [chunk], [source], [page], [vector], in this order. *)
Record chunk_dict : Type := mkChunkDict {
  chunk : string;
  source : pyval;
  page : pyval;
  vector : vec
}.

Definition chunk_dict_keys (d : chunk_dict) : list string :=
  ["chunk"; "source"; "page"; "vector"].

(** [dict.get(key, dflt)]. *)
Definition dict_get (d : gmap string pyval) (key : string) (dflt : pyval) : pyval :=
  default dflt (d !! key).

Definition make_chunk_dict (c : Document) (v : vec) : chunk_dict :=
  {| chunk := page_content c;
     source := dict_get (metadata c) "source" (PyStr "");
     page := dict_get (metadata c) "page" (PyInt 0);
     vector := v |}.

(** ** Exceptions and the world the module runs in *)

Inductive exn : Type :=
  | FileNotFoundError (msg : string)
  | IndexError
  | ValueError
  | LoaderError (path : string)
  | CollectionNotFound (name : string)
  | DimensionMismatch.

(** The vector store. *)
Module Milvus.

(** Modelled from the spec: the vector store (pymilvus' [MilvusClient]) is a
    library, not code of [rag.py].  An IndexedRecord is the persisted form of
    a chunk plus an auto-generated unique identifier. *)
Record IndexedRecord : Type := mkIndexedRecord {
  rec_id : Z;
  rec_fields : chunk_dict
}.

(** Modelled from the spec: a named collection has a declared vector
    dimension and holds the inserted records. *)
Record Collection : Type := mkCollection {
  coll_dim : Z;
  coll_records : list IndexedRecord
}.

(** Modelled from the spec: one store file holds named collections; the
    counter hands out the identifiers, so that they stay unique. *)
Record Database : Type := mkDatabase {
  db_collections : gmap string Collection;
  db_next_id : Z
}.

(** Modelled from the spec: a store file without collections. *)
Definition empty_db : Database :=
  {| db_collections := ∅; db_next_id := 0 |}.

(** Modelled from the spec: [createCollection(name, dim, overwrite)]; with
    [overwrite = true] an existing collection of that name is dropped first.
    The specification leaves [overwrite = false] on an existing collection
    open; the collection is then kept. *)
Definition create_collection (name : string) (dim : Z) (overwrite : bool)
    (db : Database) : Database :=
  let fresh :=
    {| db_collections :=
         <[name := {| coll_dim := dim; coll_records := [] |}]> (db_collections db);
       db_next_id := db_next_id db |} in
  match db_collections db !! name with
  | Some _ => if overwrite then fresh else db
  | None => fresh
  end.

(** Modelled from the spec: auto-id, consecutive identifiers from [start]. *)
Fixpoint assign_ids (start : Z) (data : list chunk_dict) : list IndexedRecord :=
  match data with
  | [] => []
  | d :: data' => {| rec_id := start; rec_fields := d |} :: assign_ids (start + 1) data'
  end.

(** Modelled from the spec: the vector has the declared dimension (the
    store signals DimensionMismatch otherwise). *)
Definition has_dim (dim : Z) (v : vec) : bool :=
  (Z.of_nat (length v) =? dim)%Z.

(** Modelled from the spec: [insert(name, records)] gives every record a
    unique identifier; it is atomic per call: all records are stored, or an
    error is signalled (CollectionNotFound, DimensionMismatch) and none is.
    The records are held by the collection from then on; from when on a
    search sees them is the store's matter ("Eventually") and not stated. *)
Definition insert (name : string) (data : list chunk_dict) (db : Database)
    : exn + Database :=
  match db_collections db !! name with
  | None => inl (CollectionNotFound name)
  | Some c =>
      if forallb (fun d => has_dim (coll_dim c) (vector d)) data then
        inr {| db_collections :=
                 <[name := {| coll_dim := coll_dim c;
                              coll_records :=
                                coll_records c ++ assign_ids (db_next_id db) data |}]>
                   (db_collections db);
               db_next_id := db_next_id db + Z.of_nat (length data) |}
      else inl DimensionMismatch
  end.

(** Modelled from the spec: a SearchResult, the record's identifier, its
    similarity score and the requested non-vector fields. *)
Record Hit : Type := mkHit {
  hit_id : Z;
  hit_distance : R;
  hit_entity : list (string * pyval)
}.

(** Modelled from the spec: similarity is the inner product (cosine
    similarity on normalised vectors). *)
Definition inner_product (a b : vec) : R :=
  foldr Rplus 0%R (zip_with Rmult a b).

(** Modelled from the spec: outputFields selects non-vector attributes. *)
Definition field_value (d : chunk_dict) (field : string) : option pyval :=
  if decide (field = "chunk") then Some (PyStr (chunk d))
  else if decide (field = "source") then Some (source d)
  else if decide (field = "page") then Some (page d)
  else None.

Definition entity_of (output_fields : list string) (d : chunk_dict)
    : list (string * pyval) :=
  omap (fun f => pair f <$> field_value d f) output_fields.

Definition score (q : vec) (output_fields : list string) (r : IndexedRecord) : Hit :=
  {| hit_id := rec_id r;
     hit_distance := inner_product q (vector (rec_fields r));
     hit_entity := entity_of output_fields (rec_fields r) |}.

(** Modelled from the spec: best-first order, by insertion; [h] goes in
    front of the first hit that scores strictly less. *)
Fixpoint insert_hit (h : Hit) (l : list Hit) : list Hit :=
  match l with
  | [] => [h]
  | h' :: l' =>
      if Rlt_dec (hit_distance h') (hit_distance h) then h :: h' :: l'
      else h' :: insert_hit h l'
  end.

Definition best_first (l : list Hit) : list Hit := foldr insert_hit [] l.

(** [h1] may stand in front of [h2] in a best-first order. *)
Definition at_least_as_good (h1 h2 : Hit) : Prop :=
  (hit_distance h2 <= hit_distance h1)%R.

(** Modelled from the spec: [search(name, queryVector, topK, outputFields)]
    returns at most topK results ordered best-first, one list per query
    vector.  The store is described once its writes have become visible
    (the "Eventually" consistency level says no more than that they do). *)
Definition search (name : string) (data : list vec) (output_fields : list string)
    (limit : nat) (db : Database) : exn + list (list Hit) :=
  match db_collections db !! name with
  | None => inl (CollectionNotFound name)
  | Some c =>
      if forallb (has_dim (coll_dim c)) data then
        inr (map (fun q => take limit
                     (best_first (map (score q output_fields) (coll_records c))))
                 data)
      else inl DimensionMismatch
  end.

End Milvus.

(** A call on the store client, as the pipeline issues it. *)
Inductive StoreCall : Type :=
  | CallConnect (uri : string)
  | CallCreateCollection (uri name : string) (dim : Z)
      (consistency_level : string) (auto_id overwrite : bool)
  | CallInsert (uri name : string) (data : list chunk_dict)
  | CallSearch (uri name : string) (data : list vec)
      (output_fields : list string) (limit : nat) (consistency_level : string).

(** What is at a path that exists: a PDF, with the pages the loader reads
    from it, or something the loader cannot read (a directory, a file that
    is no PDF). *)
Inductive file_entry : Type :=
  | Pdf (pages : list Document)
  | Unreadable.

(** The world: what exists at which path; the store files; the store calls
    issued so far. *)
Record World : Type := mkWorld {
  files : gmap string file_entry;
  databases : gmap string Milvus.Database;
  store_calls : list StoreCall
}.

(** ** A monad for statements that read or change the world, or raise *)

Inductive outcome (A : Type) : Type :=
  | Returned (a : A)
  | Raised (e : exn).
Arguments Returned {A} a.
Arguments Raised {A} e.

Definition Py (A : Type) : Type := World -> outcome A * World.

#[global] Instance Py_ret : MRet Py := fun A a w => (Returned a, w).

#[global] Instance Py_bind : MBind Py := fun A B f m w =>
  match m w with
  | (Returned a, w') => f a w'
  | (Raised e, w') => (Raised e, w')
  end.

Definition raise {A : Type} (e : exn) : Py A := fun w => (Raised e, w).

(** ** The library calls, on the world *)

Definition os_path_exists (path : string) : Py bool := fun w =>
  (Returned (bool_decide (is_Some (files w !! path))), w).

(** [PyPDFLoader(path).load()]: the pages of a PDF; the loader's own error
    for anything else. *)
Definition PyPDFLoader_load (path : string) : Py (list Document) := fun w =>
  match files w !! path with
  | Some (Pdf pages) => (Returned pages, w)
  | Some Unreadable => (Raised (LoaderError path), w)
  | None => (Raised (LoaderError path), w)
  end.

(** A computation that reads and changes nothing. *)
Definition py_lift {A : Type} (o : outcome A) : Py A := fun w => (o, w).

(** [F.normalize(embeddings, p=2, dim=1)] on the tensor made of the
    encoder's answer.  An answer without rows makes the one-dimensional
    empty tensor, which has no dimension 1: torch raises IndexError. *)
Definition F_normalize_dim1 (embeddings : list vec) : outcome (list vec) :=
  match embeddings with
  | [] => Raised IndexError
  | _ :: _ => Returned (F_normalize embeddings)
  end.

Definition database_at (w : World) (uri : string) : Milvus.Database :=
  default Milvus.empty_db (databases w !! uri).

Definition log_call (c : StoreCall) (w : World) : World :=
  {| files := files w; databases := databases w;
     store_calls := store_calls w ++ [c] |}.

Definition set_database (uri : string) (db : Milvus.Database) (w : World) : World :=
  {| files := files w; databases := <[uri := db]> (databases w);
     store_calls := store_calls w |}.

(** [MilvusClient(uri)]: a client on the store file [uri], created when it
    does not exist.  The client is identified by its file. *)
Definition MilvusClient (uri : string) : Py string := fun w =>
  let w := log_call (CallConnect uri) w in
  (Returned uri, set_database uri (database_at w uri) w).

Definition mc_create_collection (mc name : string) (dim : Z)
    (consistency_level : string) (auto_id overwrite : bool) : Py unit := fun w =>
  let w := log_call
    (CallCreateCollection mc name dim consistency_level auto_id overwrite) w in
  (Returned tt,
   set_database mc (Milvus.create_collection name dim overwrite (database_at w mc)) w).

Definition mc_insert (mc name : string) (data : list chunk_dict) : Py unit := fun w =>
  let w := log_call (CallInsert mc name data) w in
  match Milvus.insert name data (database_at w mc) with
  | inr db => (Returned tt, set_database mc db w)
  | inl e => (Raised e, w)
  end.

Definition mc_search (mc name : string) (data : list vec)
    (output_fields : list string) (limit : nat) (consistency_level : string)
    : Py (list (list Milvus.Hit)) := fun w =>
  let w := log_call
    (CallSearch mc name data output_fields limit consistency_level) w in
  match Milvus.search name data output_fields limit (database_at w mc) with
  | inr results => (Returned results, w)
  | inl e => (Raised e, w)
  end.

(** [l[0]]. *)
Definition py_first {A : Type} (l : list A) : Py A :=
  match l with
  | [] => raise IndexError
  | x :: _ => mret x
  end.

(** [l.remove(x)]: drops the first occurrence, [ValueError] without one. *)
Fixpoint list_remove (x : string) (l : list string) : option (list string) :=
  match l with
  | [] => None
  | y :: l' => if decide (y = x) then Some l' else cons y <$> list_remove x l'
  end.

Definition py_remove (l : list string) (x : string) : Py (list string) :=
  match list_remove x l with
  | Some l' => mret l'
  | None => raise ValueError
  end.

(** ** rag.py *)

Definition COLLECTION_NAME : string := "pdfs".

Section Pipeline.

(** [RecursiveCharacterTextSplitter(...).split_documents], the library
    splitter, as it behaves for a given configuration. *)
Variable split_documents : TextSplitter -> list Document -> list Document.

(** [SentenceTransformer(model_name, device=DEVICE)]: the pretrained model
    of that name. *)
Variable load_pretrained : string -> SentenceTransformer.

Definition load_embedding_model : SentenceTransformer * Z * Z :=
  let model_name := "BAAI/bge-large-en-v1.5" in
  let encoder := load_pretrained model_name in
  let embedding_dim := get_sentence_embedding_dimension encoder in
  let max_seq_length := get_max_seq_length encoder in
  (encoder, embedding_dim, max_seq_length).

Definition load_file (pdf_path : string) : Py (list Document) :=
  found ← os_path_exists pdf_path;
  if negb found then
    raise (FileNotFoundError
      ("File not found: " +:+ pdf_path +:+ ". Please provide a valid file path."))
  else
    docs ← PyPDFLoader_load pdf_path;
    mret docs.

(** The texts handed to the encoder. *)
Definition list_of_strings (chunks : list Document) : list string :=
  map page_content (List.filter hasattr_page_content chunks).

Definition encode_docs (docs : list Document) (encoder : SentenceTransformer)
  : outcome (list chunk_dict) :=
  let chunks := split_documents child_splitter docs in
  let embeddings := encode_batch encoder (list_of_strings chunks) in
  match F_normalize_dim1 embeddings with
  | Raised e => Raised e
  | Returned embeddings =>
      Returned
        (map (fun cv => make_chunk_dict (fst cv) (snd cv)) (zip chunks embeddings))
  end.

Definition save_vectors_to_db (dict_list : list chunk_dict) (embedding_dim : Z)
  : Py string :=
  mc ← MilvusClient "db/rag.db";
  _ ← mc_create_collection mc COLLECTION_NAME embedding_dim "Eventually" true true;
  _ ← mc_insert mc COLLECTION_NAME dict_list;
  mret mc.

(** The query matrix of [search]: the encoded question, [unsqueeze(0)]
    (one row), normalised along [dim=1]. *)
Definition query_embeddings (encoder : SentenceTransformer) (question : string)
  : list vec :=
  F_normalize [encode_single encoder question].

(** [top_k] is optional and defaults to 5. *)
Definition search (mc : string) (encoder : SentenceTransformer)
    (dict_list : list chunk_dict) (question : string) (top_k : option nat)
  : Py (list (list Milvus.Hit)) :=
  let top_k := default 5 top_k in
  let query_embeddings := query_embeddings encoder question in
  first ← py_first dict_list;
  OUTPUT_FIELDS ← py_remove (chunk_dict_keys first) "vector";
  results ← mc_search mc COLLECTION_NAME query_embeddings OUTPUT_FIELDS top_k
              "Eventually";
  mret results.

Definition init_rag (pdf_path : string) (force_reload : bool)
  : Py (string * SentenceTransformer * list chunk_dict) :=
  docs ← load_file pdf_path;
  let '(encoder, embedding_dim, max_seq_length) := load_embedding_model in
  dict_list ← py_lift (encode_docs docs encoder);
  mc ← save_vectors_to_db dict_list embedding_dim;
  mret (mc, encoder, dict_list).

Definition rag_search (mc : string) (encoder : SentenceTransformer)
    (dict_list : list chunk_dict) (question : string) (top_k : option nat)
  : Py (list (list Milvus.Hit)) :=
  search mc encoder dict_list question top_k.

End Pipeline.

(** ** Observations on the world *)


(** ** Concrete collaborators and inputs, for the examples below *)

(** A splitter that hands every document back as one chunk. *)
Definition whole_page_splitter (cfg : TextSplitter) (docs : list Document)
  : list Document := docs.

(** A splitter that reports the configuration it is run with: one chunk
    per document, with the separators (joined by "|") as text, the chunk
    overlap as source and the chunk size as page. *)
Definition reporting_splitter (cfg : TextSplitter) (docs : list Document)
  : list Document :=
  map (fun _ =>
         mkDocument (String.concat "|" (ts_separators cfg))
           (<["source" := PyInt (ts_chunk_overlap cfg)]>
              (<["page" := PyInt (ts_chunk_size cfg)]> ∅)))
      docs.

(** A model that embeds every text as the same vector [v]. *)
Definition constant_model (v : vec) : SentenceTransformer :=
  {| encode_batch := map (fun _ => v);
     encode_single := fun _ => v;
     get_sentence_embedding_dimension := Z.of_nat (length v);
     get_max_seq_length := 512 |}.

(** A model whose two call shapes disagree: every row of a batch is
    [1; 0], every single text is embedded as [0; 1]. *)
Definition two_shape_model : SentenceTransformer :=
  {| encode_batch := map (fun _ => [1%R; 0%R]);
     encode_single := fun _ => [0%R; 1%R];
     get_sentence_embedding_dimension := 2;
     get_max_seq_length := 512 |}.



Definition sky_page : Document :=
  mkDocument "The sky is blue."
    (<["source" := PyStr "sky.pdf"]> (<["page" := PyInt 0]> ∅)).

Definition bare_page : Document := mkDocument "Water boils." ∅.

(** A page whose metadata holds no string as source and a negative page. *)
Definition untyped_page : Document :=
  mkDocument "Grass is green."
    (<["source" := PyNone]> (<["page" := PyInt (-1)]> ∅)).

(** A world with two PDF files of one page each and no store file. *)
Definition two_files_world : World :=
  {| files := <["sky.pdf" := Pdf [sky_page]]>
                (<["water.pdf" := Pdf [bare_page]]> ∅);
     databases := ∅;
     store_calls := [] |}.

(** Every model name loads the constant model on [3; 4]. *)
Definition load_constant_model (model_name : string) : SentenceTransformer :=
  constant_model [3%R; 4%R].


(** The first ingest of the examples: "sky.pdf" into a fresh store. *)
Definition sky_dict_list : list chunk_dict :=
  [make_chunk_dict sky_page (normalize_row [3%R; 4%R])].

Definition sky_world : World :=
  snd (init_rag whole_page_splitter load_constant_model "sky.pdf" false
         two_files_world).

(** A question asked after that ingest, with [top_k] left to its default. *)
Definition sky_search : outcome (list (list Milvus.Hit)) * World :=
  search "db/rag.db" (constant_model [3%R; 4%R]) sky_dict_list "sky?" None sky_world.

Definition sky_results : list (list Milvus.Hit) :=
  match fst sky_search with
  | Returned results => results
  | Raised _ => []
  end.

(** The store after the first ingest, with a second collection beside
    "pdfs" in the same store file. *)
Definition sky_world_with_notes : World :=
  set_database "db/rag.db"
    (Milvus.create_collection "notes" 2 true (database_at sky_world "db/rag.db"))
    sky_world.

(** The world after the first ingest, with two more paths: a PDF without
    pages and a directory. *)
Definition sky_world_with_blank : World :=
  {| files := <["blank.pdf" := Pdf []]> (<["docs" := Unreadable]> (files sky_world));
     databases := databases sky_world;
     store_calls := store_calls sky_world |}.

(** * Properties *)

(** ** The formula of the normalisation *)

Lemma normalize_eps_pos : (0 < normalize_eps)%R.
Proof.
  unfold normalize_eps. apply Rdiv_lt_0_compat; [lra|].
  apply pow_lt. lra.
Qed.




Lemma Rmax_norm_pos (v : vec) : (0 < Rmax (l2_norm v) normalize_eps)%R.
Proof. eapply Rlt_le_trans; [apply normalize_eps_pos | apply Rmax_r]. Qed.

(** ** encode_docs, record by record *)

Section EncodeDocs.

Variable split_documents : TextSplitter -> list Document -> list Document.

Lemma list_of_strings_all (chunks : list Document) :
  list_of_strings chunks = map page_content chunks.
Proof.
  unfold list_of_strings. f_equal.
  induction chunks as [|c chunks IH]; simpl; [reflexivity|].
  f_equal. exact IH.
Qed.

Lemma encode_docs_unfold docs encoder :
  encode_docs split_documents docs encoder =
  match encode_batch encoder
          (list_of_strings (split_documents child_splitter docs)) with
  | [] => Raised IndexError
  | row :: rows =>
      Returned
        (map (fun cv => make_chunk_dict (fst cv) (snd cv))
           (zip (split_documents child_splitter docs)
              (map normalize_row (row :: rows))))
  end.
Proof.
  unfold encode_docs, F_normalize_dim1, F_normalize.
  destruct (encode_batch encoder _); reflexivity.
Qed.


Lemma encode_docs_returned docs encoder (dict_list : list chunk_dict) :
  encode_docs split_documents docs encoder = Returned dict_list <->
  encode_batch encoder (list_of_strings (split_documents child_splitter docs)) <> []
  /\ dict_list =
       map (fun cv => make_chunk_dict (fst cv) (snd cv))
         (zip (split_documents child_splitter docs)
            (map normalize_row
               (encode_batch encoder
                  (list_of_strings (split_documents child_splitter docs))))).
Proof.
  rewrite encode_docs_unfold.
  destruct (encode_batch encoder _) as [|row rows].
  - split; [intros H; discriminate H | intros [H _]; contradiction].
  - split.
    + intros H. injection H as <-. split; [discriminate | reflexivity].
    + intros [_ ->]. reflexivity.
Qed.

Lemma encode_docs_lookup docs encoder (dict_list : list chunk_dict)
    (i : nat) (r : chunk_dict) :
  encode_docs split_documents docs encoder = Returned dict_list ->
  dict_list !! i = Some r <->
  exists c v,
    split_documents child_splitter docs !! i = Some c /\
    encode_batch encoder (list_of_strings (split_documents child_splitter docs)) !! i
      = Some v /\
    r = make_chunk_dict c (normalize_row v).
Proof.
  intros Henc. apply encode_docs_returned in Henc as [_ ->].
  change (map ?f ?l) with (f <$> l).
  rewrite list_lookup_fmap.
  split.
  - intros H. apply fmap_Some in H as [[c v'] [Hz ->]].
    apply lookup_zip_with_Some in Hz as (c0 & v0 & Heq & Hc & Hv).
    injection Heq as -> ->.
    rewrite list_lookup_fmap in Hv. apply fmap_Some in Hv as [v [Hv ->]].
    exists c0, v. auto.
  - intros (c & v & Hc & Hv & ->).
    apply fmap_Some. exists (c, normalize_row v). split; [|reflexivity].
    apply lookup_zip_with_Some. exists c, (normalize_row v).
    split; [reflexivity|]. split; [exact Hc|].
    rewrite list_lookup_fmap, Hv. reflexivity.
Qed.

End EncodeDocs.

Lemma constant_model_batch_consistent (v : vec) :
  batch_consistent (constant_model v).
Proof. intros texts. reflexivity. Qed.

(** ** The splitter configuration *)

(** C2: whatever the documents, [encode_docs] runs the splitter on them
    with the separators paragraph break, line break, ". ", ", ", " " and ""
    in this order, chunk size 384 and overlap [int(384 * 0.3)], which is
    115: the texts sent to the encoder and the texts of the records are
    those of the chunks this run gives. *)
Theorem C2_splitter_configuration
    (split_documents : TextSplitter -> list Document -> list Document)
    (docs : list Document) (encoder : SentenceTransformer) :
  let config :=
    {| ts_chunk_size := 384;
       ts_chunk_overlap := 115;
       ts_separators :=
         [String "010" (String "010" ""); String "010" ""; ". "; ", "; " "; ""] |} in
  let chunks := split_documents config docs in
  PyFloat.to_int chunk_overlap_float = Some 115%Z /\
  child_splitter = config /\
  encode_docs split_documents docs encoder =
    match encode_batch encoder (map page_content chunks) with
    | [] => Raised IndexError
    | row :: rows =>
        Returned
          (map (fun cv => make_chunk_dict (fst cv) (snd cv))
             (zip chunks (map normalize_row (row :: rows))))
    end /\
  (forall dict_list,
     encode_docs split_documents docs encoder = Returned dict_list ->
     map chunk dict_list
     = take (length (encode_batch encoder (map page_content chunks)))
         (map page_content chunks)).
Proof.
  intros config chunks.
  assert (Hov : PyFloat.to_int chunk_overlap_float = Some 115%Z)
    by (vm_compute; reflexivity).
  assert (Hcfg : child_splitter = config).
  { unfold child_splitter, chunk_overlap. rewrite Hov. reflexivity. }
  split; [exact Hov|]. split; [exact Hcfg|]. split.
  - rewrite encode_docs_unfold, list_of_strings_all, Hcfg. reflexivity.
  - intros dict_list Henc.
    apply encode_docs_returned in Henc as [_ ->].
    rewrite list_of_strings_all, Hcfg. fold chunks.
    rewrite map_map. cbn [make_chunk_dict chunk].
    generalize (map normalize_row (encode_batch encoder (map page_content chunks)))
      (eq_sym (length_map normalize_row
                 (encode_batch encoder (map page_content chunks)))).
    intros rows ->.
    generalize chunks. clear. intros chunks. revert rows.
    induction chunks as [|c chunks IH]; intros [|row rows]; simpl; try reflexivity.
    rewrite IH. reflexivity.
Qed.

Lemma C2_splitter_configuration_witness :
  encode_docs reporting_splitter [sky_page] (constant_model [3%R; 4%R]) =
  Returned
    [{| chunk := newline +:+ newline +:+ "|" +:+ newline +:+ "|. |, | |";
        source := PyInt 115;
        page := PyInt 384;
        vector := normalize_row [3%R; 4%R] |}].
Proof.
  destruct (C2_splitter_configuration reporting_splitter [sky_page]
              (constant_model [3%R; 4%R])) as (_ & _ & Hrun & _).
  rewrite Hrun. reflexivity.
Defined.

(** ** Vectors and their texts *)

(** C4: the record at index [i] pairs the text of chunk [i] with the
    normalised row [i] of the encoder's answer for the list of texts, whose
    entry [i] is that same text; with as many rows as texts no chunk is
    dropped, and for a model whose batch rows are its single-call
    embeddings the vector is the normalised embedding of the record's own
    text. *)
Theorem C4_vectors_paired_with_their_texts
    (split_documents : TextSplitter -> list Document -> list Document)
    (docs : list Document) (encoder : SentenceTransformer)
    (dict_list : list chunk_dict) (i : nat) (r : chunk_dict) :
  encode_docs split_documents docs encoder = Returned dict_list ->
  dict_list !! i = Some r ->
  let chunks := split_documents child_splitter docs in
  exists c v,
    chunks !! i = Some c /\
    chunk r = page_content c /\
    list_of_strings chunks !! i = Some (chunk r) /\
    encode_batch encoder (list_of_strings chunks) !! i = Some v /\
    vector r = normalize_row v /\
    (length (encode_batch encoder (list_of_strings chunks))
       = length (list_of_strings chunks) ->
     length dict_list = length chunks) /\
    (batch_consistent encoder ->
     vector r = normalize_row (encode_single encoder (chunk r))).
Proof.
  intros Henc Hr chunks.
  apply (encode_docs_lookup _ _ _ _ _ _ Henc) in Hr as (c & v & Hc & Hv & ->).
  fold chunks in Hc, Hv.
  assert (Ht : list_of_strings chunks !! i = Some (page_content c)).
  { rewrite list_of_strings_all.
    change (map ?f ?l) with (f <$> l).
    rewrite list_lookup_fmap, Hc. reflexivity. }
  exists c, v. simpl.
  split; [exact Hc|]. split; [reflexivity|]. split; [exact Ht|].
  split; [exact Hv|]. split; [reflexivity|]. split.
  - intros Hlen. apply encode_docs_returned in Henc as [_ ->]. fold chunks.
    rewrite length_map, length_zip_with, length_map, Hlen.
    rewrite list_of_strings_all, length_map. lia.
  - intros Hdet. rewrite Hdet in Hv.
    change (map ?f ?l) with (f <$> l) in Hv.
    rewrite list_lookup_fmap, Ht in Hv. simpl in Hv.
    injection Hv as <-. reflexivity.
Qed.

Lemma C4_vectors_paired_with_their_texts_witness :
  exists r,
    encode_docs whole_page_splitter [sky_page; bare_page]
      (constant_model [3%R; 4%R])
    = Returned [make_chunk_dict sky_page (normalize_row [3%R; 4%R]); r] /\
    chunk r = "Water boils." /\
    vector r = normalize_row (encode_single (constant_model [3%R; 4%R]) "Water boils.").
Proof.
  exists (make_chunk_dict bare_page (normalize_row [3%R; 4%R])).
  split; [reflexivity|]. split; [reflexivity|].
  destruct (C4_vectors_paired_with_their_texts whole_page_splitter
              [sky_page; bare_page] (constant_model [3%R; 4%R])
              [make_chunk_dict sky_page (normalize_row [3%R; 4%R]);
               make_chunk_dict bare_page (normalize_row [3%R; 4%R])]
              1 (make_chunk_dict bare_page (normalize_row [3%R; 4%R]))
              eq_refl eq_refl)
    as (c & v & _ & _ & _ & _ & _ & _ & Hdet).
  exact (Hdet (constant_model_batch_consistent _)).
Defined.

(** C7 (amended): when the model's batch rows are its single-call
    embeddings, the vector stored for a chunk text by the batch path of
    [encode_docs] is the very vector the single path of [search] computes
    when the question is that text: the model's embedding of the text, each
    entry divided by max(norm, 1e-12). *)
Theorem C7_batch_and_single_path_agree
    (split_documents : TextSplitter -> list Document -> list Document)
    (docs : list Document) (encoder : SentenceTransformer)
    (dict_list : list chunk_dict) (i : nat) (r : chunk_dict) :
  batch_consistent encoder ->
  encode_docs split_documents docs encoder = Returned dict_list ->
  dict_list !! i = Some r ->
  query_embeddings encoder (chunk r) = [vector r] /\
  vector r =
    map (fun x =>
           x / Rmax (l2_norm (encode_single encoder (chunk r))) normalize_eps)%R
      (encode_single encoder (chunk r)).
Proof.
  intros Hdet Henc Hr.
  apply (encode_docs_lookup _ _ _ _ _ _ Henc) in Hr as (c & v & Hc & Hv & ->).
  rewrite Hdet, list_of_strings_all in Hv.
  change (map ?f ?l) with (f <$> l) in Hv.
  rewrite !list_lookup_fmap, Hc in Hv. simpl in Hv.
  injection Hv as <-. split; reflexivity.
Qed.

Lemma C7_batch_and_single_path_agree_witness :
  query_embeddings (constant_model [3%R; 4%R]) "The sky is blue."
  = [normalize_row [3%R; 4%R]].
Proof.
  exact (proj1 (C7_batch_and_single_path_agree whole_page_splitter [sky_page]
                  (constant_model [3%R; 4%R])
                  [make_chunk_dict sky_page (normalize_row [3%R; 4%R])] 0
                  (make_chunk_dict sky_page (normalize_row [3%R; 4%R]))
                  (constant_model_batch_consistent _) eq_refl eq_refl)).
Defined.

(** C7, as stated, fails for a model each of whose call shapes is a
    function of its input while the two disagree: the vector stored for a
    text is then not the vector the query for that text gets. *)
Lemma C7_counterexample_call_shapes_disagree :
  exists r,
    encode_docs whole_page_splitter [sky_page] two_shape_model = Returned [r] /\
    chunk r = "The sky is blue." /\
    query_embeddings two_shape_model (chunk r) <> [vector r].
Proof.
  exists (make_chunk_dict sky_page (normalize_row [1%R; 0%R])).
  split; [reflexivity|]. split; [reflexivity|].
  unfold query_embeddings, F_normalize, normalize_row; simpl.
  intros Heq. injection Heq as Hhead _.
  pose proof (Rmax_norm_pos [1%R; 0%R]) as Hpos.
  unfold Rdiv in Hhead. rewrite Rmult_0_l, Rmult_1_l in Hhead.
  symmetry in Hhead. revert Hhead. apply Rinv_neq_0_compat. lra.
Qed.

(** ** Metadata defaults *)

(** C9 (amended): a chunk without a 'source' key gives a record whose
    source is the empty string, and one without a 'page' key a record whose
    page is 0; a value that is present is copied as it is.  So the record's
    source is a string and its page a non-negative integer when the
    metadata's own values, where present, are such. *)
Theorem C9_source_and_page_defaults
    (split_documents : TextSplitter -> list Document -> list Document)
    (docs : list Document) (encoder : SentenceTransformer)
    (dict_list : list chunk_dict) (i : nat) (c : Document) (r : chunk_dict) :
  split_documents child_splitter docs !! i = Some c ->
  encode_docs split_documents docs encoder = Returned dict_list ->
  dict_list !! i = Some r ->
  (metadata c !! "source" = None -> source r = PyStr "") /\
  (metadata c !! "page" = None -> page r = PyInt 0) /\
  (forall v, metadata c !! "source" = Some v -> source r = v) /\
  (forall v, metadata c !! "page" = Some v -> page r = v) /\
  ((forall v, metadata c !! "source" = Some v -> is_str v) -> is_str (source r)) /\
  ((forall v, metadata c !! "page" = Some v -> is_nonneg_int v) ->
   is_nonneg_int (page r)).
Proof.
  intros Hc Henc Hr.
  apply (encode_docs_lookup _ _ _ _ _ _ Henc) in Hr as (c' & v & Hc' & _ & ->).
  rewrite Hc in Hc'. injection Hc' as <-.
  unfold make_chunk_dict, dict_get; simpl.
  repeat split.
  - intros ->. reflexivity.
  - intros ->. reflexivity.
  - intros v' ->. reflexivity.
  - intros v' ->. reflexivity.
  - intros Hty. destruct (metadata c !! "source") as [s|]; simpl.
    + apply Hty. reflexivity.
    + exact I.
  - intros Hty. destruct (metadata c !! "page") as [p|]; simpl.
    + apply Hty. reflexivity.
    + lia.
Qed.

Lemma C9_source_and_page_defaults_witness :
  exists r,
    encode_docs whole_page_splitter [bare_page] (constant_model [3%R; 4%R])
      = Returned [r] /\
    source r = PyStr "" /\ page r = PyInt 0 /\
    is_str (source r) /\ is_nonneg_int (page r).
Proof.
  exists (make_chunk_dict bare_page (normalize_row [3%R; 4%R])).
  destruct (C9_source_and_page_defaults whole_page_splitter [bare_page]
              (constant_model [3%R; 4%R])
              [make_chunk_dict bare_page (normalize_row [3%R; 4%R])]
              0 bare_page _ eq_refl eq_refl eq_refl)
    as (Hs & Hp & _ & _ & Hst & Hpt).
  split; [reflexivity|].
  split; [apply Hs; reflexivity|].
  split; [apply Hp; reflexivity|].
  split.
  - apply Hst. intros v Hv. discriminate Hv.
  - apply Hpt. intros v Hv. discriminate Hv.
Defined.

(** C9, as stated, fails for metadata that holds the keys with other
    values: a source that is no string and a negative page are inserted as
    they are. *)
Lemma C9_counterexample_untyped_metadata :
  exists r,
    encode_docs whole_page_splitter [untyped_page] (constant_model [3%R; 4%R])
      = Returned [r] /\
    source r = PyNone /\ page r = PyInt (-1) /\
    ~ is_str (source r) /\ ~ is_nonneg_int (page r).
Proof.
  exists (make_chunk_dict untyped_page (normalize_row [3%R; 4%R])).
  split; [reflexivity|]. split; [reflexivity|]. split; [reflexivity|].
  split.
  - intros H. exact H.
  - intros H. change (0 <= -1)%Z in H. lia.
Qed.
(** ** Loading *)

(** C3: when no file exists at the path, [init_rag] raises
    FileNotFoundError with a message that contains the path, and the world
    is as before: no collection was created, nothing was inserted, no
    store call was issued. *)
Theorem C3_missing_file_leaves_store_untouched
    (split_documents : TextSplitter -> list Document -> list Document)
    (load_pretrained : string -> SentenceTransformer)
    (pdf_path : string) (force_reload : bool) (w : World) :
  files w !! pdf_path = None ->
  init_rag split_documents load_pretrained pdf_path force_reload w =
    (Raised (FileNotFoundError
       ("File not found: " +:+ pdf_path +:+ ". Please provide a valid file path.")),
     w).
Proof.
  intros Hnone.
  unfold init_rag, load_file, os_path_exists, mbind, Py_bind.
  rewrite Hnone.
  rewrite bool_decide_eq_false_2 by (intros [docs Hdocs]; discriminate Hdocs).
  reflexivity.
Qed.

Lemma C3_missing_file_leaves_store_untouched_witness :
  init_rag whole_page_splitter load_constant_model "/nonexistent.pdf" false
    two_files_world =
  (Raised (FileNotFoundError
     "File not found: /nonexistent.pdf. Please provide a valid file path."),
   two_files_world).
Proof.
  apply (C3_missing_file_leaves_store_untouched whole_page_splitter
           load_constant_model "/nonexistent.pdf" false two_files_world).
  vm_compute. reflexivity.
Defined.

(** ** Searching *)

(** *** Best-first order of the store's answer *)

Lemma insert_hit_length (h : Milvus.Hit) (l : list Milvus.Hit) :
  length (Milvus.insert_hit h l) = S (length l).
Proof.
  induction l as [|h' l IH]; simpl; [reflexivity|].
  destruct (Rlt_dec _ _); simpl; [reflexivity | rewrite IH; reflexivity].
Qed.

Lemma insert_hit_perm (h : Milvus.Hit) (l : list Milvus.Hit) :
  Milvus.insert_hit h l ≡ₚ h :: l.
Proof.
  induction l as [|h' l IH]; simpl; [reflexivity|].
  destruct (Rlt_dec _ _); [reflexivity|].
  rewrite IH. apply Permutation_swap.
Qed.

Lemma insert_hit_sorted (h : Milvus.Hit) (l : list Milvus.Hit) :
  StronglySorted Milvus.at_least_as_good l ->
  StronglySorted Milvus.at_least_as_good (Milvus.insert_hit h l).
Proof.
  induction l as [|h' l IH]; intros Hs; simpl.
  - constructor; constructor.
  - apply StronglySorted_inv in Hs as [Hl Hall].
    destruct (Rlt_dec (Milvus.hit_distance h') (Milvus.hit_distance h)) as [Hlt|Hge].
    + constructor.
      * constructor; assumption.
      * constructor.
        -- unfold Milvus.at_least_as_good. lra.
        -- eapply Forall_impl; [exact Hall|].
           unfold Milvus.at_least_as_good. intros x Hx. lra.
    + constructor.
      * apply IH, Hl.
      * rewrite insert_hit_perm. constructor; [|exact Hall].
        unfold Milvus.at_least_as_good. lra.
Qed.

Lemma best_first_length (l : list Milvus.Hit) :
  length (Milvus.best_first l) = length l.
Proof.
  induction l as [|h l IH]; simpl; [reflexivity|].
  rewrite insert_hit_length, IH. reflexivity.
Qed.

Lemma best_first_perm (l : list Milvus.Hit) : Milvus.best_first l ≡ₚ l.
Proof.
  induction l as [|h l IH]; simpl; [reflexivity|].
  rewrite insert_hit_perm, IH. reflexivity.
Qed.

Lemma best_first_sorted (l : list Milvus.Hit) :
  StronglySorted Milvus.at_least_as_good (Milvus.best_first l).
Proof.
  induction l as [|h l IH]; simpl; [constructor|].
  apply insert_hit_sorted, IH.
Qed.

(** *** The store calls of the pipeline *)

Lemma database_at_log_call (c : StoreCall) (w : World) (uri : string) :
  database_at (log_call c w) uri = database_at w uri.
Proof. reflexivity. Qed.

Lemma database_at_set_database (uri : string) (db : Milvus.Database) (w : World) :
  database_at (set_database uri db w) uri = db.
Proof. unfold database_at, set_database; simpl. rewrite lookup_insert_eq. reflexivity. Qed.

Lemma search_run (mc : string) (encoder : SentenceTransformer)
    (d : chunk_dict) (dict_list : list chunk_dict) (question : string)
    (top_k : option nat) (w : World) :
  search mc encoder (d :: dict_list) question top_k w =
  let call := CallSearch mc COLLECTION_NAME (query_embeddings encoder question)
                ["chunk"; "source"; "page"] (default 5 top_k) "Eventually" in
  match Milvus.search COLLECTION_NAME (query_embeddings encoder question)
          ["chunk"; "source"; "page"] (default 5 top_k) (database_at w mc) with
  | inr results => (Returned results, log_call call w)
  | inl e => (Raised e, log_call call w)
  end.
Proof.
  assert (Hfields : list_remove "vector" (chunk_dict_keys d)
                    = Some ["chunk"; "source"; "page"]) by reflexivity.
  unfold search, mbind, Py_bind, py_first, mret, Py_ret. cbv beta iota zeta.
  unfold py_remove. rewrite Hfields.
  unfold mc_search, mret, Py_ret. cbv beta iota zeta.
  rewrite database_at_log_call.
  destruct (Milvus.search _ _ _ _ _); reflexivity.
Qed.

(** C5: with at least one entry in [dict_list], the collection in place
    and a query vector of its dimension, [search] returns one list of hits
    for the question; it has at most [top_k] hits (5 when [top_k] is not
    given), exactly as many as the collection has records when [top_k] is
    not smaller, and the hits are the front of the best-first order of all
    records of the collection. *)
Theorem C5_search_returns_top_k_best_first
    (mc : string) (encoder : SentenceTransformer)
    (d : chunk_dict) (dict_list : list chunk_dict)
    (question : string) (top_k : option nat) (w : World)
    (c : Milvus.Collection) :
  Milvus.db_collections (database_at w mc) !! COLLECTION_NAME = Some c ->
  Milvus.has_dim (Milvus.coll_dim c)
    (normalize_row (encode_single encoder question)) = true ->
  search mc encoder (d :: dict_list) question None w =
    search mc encoder (d :: dict_list) question (Some 5) w /\
  exists hits rest w',
    search mc encoder (d :: dict_list) question top_k w = (Returned [hits], w') /\
    length hits <= default 5 top_k /\
    length hits = min (default 5 top_k) (length (Milvus.coll_records c)) /\
    (length (Milvus.coll_records c) <= default 5 top_k ->
     length hits = length (Milvus.coll_records c)) /\
    StronglySorted Milvus.at_least_as_good (hits ++ rest)%list /\
    (hits ++ rest)%list ≡ₚ
      map (Milvus.score (normalize_row (encode_single encoder question))
             ["chunk"; "source"; "page"])
        (Milvus.coll_records c).
Proof.
  intros Hc Hdim. split; [reflexivity|].
  set (q := normalize_row (encode_single encoder question)) in *.
  set (sorted := Milvus.best_first
                   (map (Milvus.score q ["chunk"; "source"; "page"])
                      (Milvus.coll_records c))).
  assert (Hlen : length sorted = length (Milvus.coll_records c)).
  { unfold sorted. rewrite best_first_length, length_map. reflexivity. }
  exists (take (default 5 top_k) sorted), (drop (default 5 top_k) sorted).
  eexists. split.
  - rewrite search_run. cbv zeta.
    unfold Milvus.search. rewrite Hc.
    unfold query_embeddings, F_normalize.
    cbn [map forallb]. fold q. rewrite Hdim. reflexivity.
  - rewrite length_take, Hlen, take_drop.
    split; [lia|]. split; [reflexivity|]. split; [lia|].
    split; [apply best_first_sorted | apply best_first_perm].
Qed.

Lemma C5_search_returns_top_k_best_first_witness :
  exists hits, sky_results = [hits] /\ length hits = 1%nat.
Proof.
  destruct (C5_search_returns_top_k_best_first "db/rag.db"
              (constant_model [3%R; 4%R])
              (make_chunk_dict sky_page (normalize_row [3%R; 4%R])) []
              "sky?" None sky_world
              {| Milvus.coll_dim := 2;
                 Milvus.coll_records := Milvus.assign_ids 0 sky_dict_list |}
              eq_refl eq_refl)
    as [_ (hits & rest & w' & Hrun & _ & Hmin & _)].
  exists hits. split.
  - unfold sky_results, sky_search.
    change sky_dict_list
      with [make_chunk_dict sky_page (normalize_row [3%R; 4%R])].
    rewrite Hrun. reflexivity.
  - rewrite Hmin. reflexivity.
Defined.

(** ** One collection, recreated by every ingest *)







(** ** What reaches the store *)




(** C8: with an empty [dict_list], [search] raises IndexError at
    [dict_list[0]] and the world is as before: the store was not asked.
    With an entry in [dict_list] the store call follows. *)
Theorem C8_search_on_empty_dict_list
    (mc : string) (encoder : SentenceTransformer) (question : string)
    (top_k : option nat) (w : World) :
  search mc encoder [] question top_k w = (Raised IndexError, w) /\
  store_calls (snd (search mc encoder [] question top_k w)) = store_calls w /\
  forall (d : chunk_dict) (dict_list : list chunk_dict),
    store_calls (snd (search mc encoder (d :: dict_list) question top_k w)) =
      (store_calls w ++
       [CallSearch mc COLLECTION_NAME (query_embeddings encoder question)
          ["chunk"; "source"; "page"] (default 5 top_k) "Eventually"])%list.
Proof.
  split; [reflexivity|]. split; [reflexivity|].
  intros d dict_list.
  rewrite search_run. cbv zeta.
  destruct (Milvus.search _ _ _ _ _); reflexivity.
Qed.



(** * Further properties of the module *)

(** ** The records of encode_docs as a list *)





(** ** Loading a file *)

(** X4: [load_file] never changes the world.  It returns pages exactly
    when the path holds a PDF, and they are its pages; it raises
    FileNotFoundError, with the message naming the path, exactly when
    nothing exists at the path; and when something else exists there, the
    existence check passes and the loader's own error comes through. *)
Theorem load_file_reads_only (pdf_path : string) (w : World) :
  snd (load_file pdf_path w) = w /\
  (forall docs,
     fst (load_file pdf_path w) = Returned docs
     <-> files w !! pdf_path = Some (Pdf docs)) /\
  (fst (load_file pdf_path w)
   = Raised (FileNotFoundError
               ("File not found: " +:+ pdf_path
                +:+ ". Please provide a valid file path."))
   <-> files w !! pdf_path = None) /\
  (fst (load_file pdf_path w) = Raised (LoaderError pdf_path)
   <-> files w !! pdf_path = Some Unreadable).
Proof.
  unfold load_file, os_path_exists, PyPDFLoader_load, mbind, Py_bind, mret, Py_ret.
  destruct (files w !! pdf_path) as [[pages|]|] eqn:Hfile.
  - rewrite bool_decide_eq_true_2 by (eexists; reflexivity).
    cbv beta iota zeta. cbn [negb]. rewrite Hfile. cbn [fst snd].
    split; [reflexivity|]. split; [|split].
    + intros docs. split; intros H; injection H as <-; reflexivity.
    + split; intros H; discriminate H.
    + split; intros H; discriminate H.
  - rewrite bool_decide_eq_true_2 by (eexists; reflexivity).
    cbv beta iota zeta. cbn [negb]. rewrite Hfile. cbn [fst snd].
    split; [reflexivity|]. split; [|split].
    + intros docs. split; intros H; discriminate H.
    + split; intros H; discriminate H.
    + split; reflexivity.
  - rewrite bool_decide_eq_false_2 by (intros [docs Hdocs]; discriminate Hdocs).
    cbv beta iota zeta. cbn [negb fst snd raise].
    split; [reflexivity|]. split; [|split].
    + intros docs. split; intros H; discriminate H.
    + split; reflexivity.
    + split; intros H; discriminate H.
Qed.

Lemma load_file_reads_only_witness :
  load_file "sky.pdf" two_files_world = (Returned [sky_page], two_files_world) /\
  load_file "docs" sky_world_with_blank
  = (Raised (LoaderError "docs"), sky_world_with_blank).
Proof.
  destruct (load_file_reads_only "sky.pdf" two_files_world) as (Hw & Hret & _).
  destruct (load_file_reads_only "docs" sky_world_with_blank)
    as (Hw' & _ & _ & Hload).
  split.
  - apply injective_projections; [|exact Hw].
    apply (proj2 (Hret [sky_page])). reflexivity.
  - apply injective_projections; [|exact Hw'].
    apply (proj2 Hload). reflexivity.
Defined.

(** ** Writing to the store *)

Lemma save_vectors_to_db_world (dict_list : list chunk_dict) (embedding_dim : Z)
    (w : World) :
  let uri := "db/rag.db" in
  let recreated :=
    Milvus.create_collection COLLECTION_NAME embedding_dim true (database_at w uri) in
  let logged :=
    log_call (CallInsert uri COLLECTION_NAME dict_list)
      (set_database uri recreated
         (log_call
            (CallCreateCollection uri COLLECTION_NAME embedding_dim
               "Eventually" true true)
            (set_database uri (database_at w uri)
               (log_call (CallConnect uri) w)))) in
  save_vectors_to_db dict_list embedding_dim w =
  match Milvus.insert COLLECTION_NAME dict_list recreated with
  | inr db => (Returned uri, set_database uri db logged)
  | inl e => (Raised e, logged)
  end.
Proof.
  unfold save_vectors_to_db, mbind, Py_bind, MilvusClient, mc_create_collection,
    mc_insert, mret, Py_ret.
  cbv beta iota zeta.
  repeat (rewrite database_at_log_call || rewrite database_at_set_database).
  destruct (Milvus.insert _ _ _); reflexivity.
Qed.

Lemma database_at_set_database_ne (uri uri' : string) (db : Milvus.Database)
    (w : World) :
  uri <> uri' -> database_at (set_database uri db w) uri' = database_at w uri'.
Proof.
  intros Hne. unfold database_at, set_database; simpl.
  rewrite lookup_insert_ne by exact Hne. reflexivity.
Qed.

Lemma create_collection_other (name name' : string) (dim : Z) (overwrite : bool)
    (db : Milvus.Database) :
  name <> name' ->
  Milvus.db_collections (Milvus.create_collection name dim overwrite db) !! name'
  = Milvus.db_collections db !! name'.
Proof.
  intros Hne. unfold Milvus.create_collection.
  destruct (Milvus.db_collections db !! name); [destruct overwrite|]; simpl;
    try reflexivity; apply lookup_insert_ne, Hne.
Qed.

Lemma insert_other (name name' : string) (data : list chunk_dict)
    (db db' : Milvus.Database) :
  Milvus.insert name data db = inr db' ->
  name <> name' ->
  Milvus.db_collections db' !! name' = Milvus.db_collections db !! name'.
Proof.
  unfold Milvus.insert. intros Hins Hne.
  destruct (Milvus.db_collections db !! name); [|discriminate Hins].
  destruct (forallb _ data); [|discriminate Hins].
  injection Hins as <-. simpl. apply lookup_insert_ne, Hne.
Qed.

(** X5: [save_vectors_to_db] touches nothing but the collection "pdfs" of the
    store file "db/rag.db": the files, every other store file and every
    other collection of "db/rag.db" are as before, whether the insert goes
    through or not. *)
Theorem save_vectors_to_db_frame (dict_list : list chunk_dict) (embedding_dim : Z)
    (w : World) (uri name : string) :
  uri <> "db/rag.db" \/ name <> "pdfs" ->
  let w' := snd (save_vectors_to_db dict_list embedding_dim w) in
  files w' = files w /\
  Milvus.db_collections (database_at w' uri) !! name
  = Milvus.db_collections (database_at w uri) !! name.
Proof.
  intros Hother. rewrite save_vectors_to_db_world. cbv zeta.
  destruct (decide (uri = "db/rag.db")) as [->|Huri].
  - destruct Hother as [Hu|Hname]; [contradiction|].
    assert (Hne : COLLECTION_NAME <> name) by (intros <-; apply Hname; reflexivity).
    destruct (Milvus.insert _ _ _) as [e|db] eqn:Hins; cbn [snd].
    + split; [reflexivity|].
      rewrite database_at_log_call, database_at_set_database.
      apply create_collection_other, Hne.
    + split; [reflexivity|].
      rewrite database_at_set_database.
      rewrite (insert_other _ _ _ _ _ Hins Hne).
      apply create_collection_other, Hne.
  - assert (Hne : "db/rag.db" <> uri) by (intros Heq; apply Huri; symmetry; exact Heq).
    destruct (Milvus.insert _ _ _) as [e|db]; cbn [snd];
      (split; [reflexivity|]);
      repeat (rewrite database_at_log_call
              || rewrite (database_at_set_database_ne _ _ _ _ Hne));
      reflexivity.
Qed.

Lemma save_vectors_to_db_frame_witness :
  Milvus.db_collections
    (database_at
       (snd (save_vectors_to_db
               [make_chunk_dict bare_page (normalize_row [3%R; 4%R])]
               2 sky_world_with_notes))
       "db/rag.db") !! "notes"
  = Some {| Milvus.coll_dim := 2; Milvus.coll_records := [] |}.
Proof.
  refine (eq_trans
            (proj2 (save_vectors_to_db_frame
                      [make_chunk_dict bare_page (normalize_row [3%R; 4%R])]
                      2 sky_world_with_notes "db/rag.db" "notes"
                      (or_intror _))) _).
  - discriminate.
  - reflexivity.
Defined.





(** ** Asking the store *)



